(** * Easy21: the card-game environment of gym_like/envs/card_game/easy_21.py

    A shallow embedding of the class [Easy21] and a verification of its
    episode rules: dealing, hitting, the dealer's turn, scoring, and the two
    assertions that guard [step] and the dealer's resolution.

    Modelling choices.
    - A hand sum is a Python [int] when [randint] has dealt it and a NumPy
      [np.int64] once a card has been added to it; the two behave
      differently under [is False] and under overflow, so a sum carries its
      type ([pynum]) and an [np.int64] sum wraps at 64 bits.  The source's
      own test block records the two types: [_get_observation] after a deal
      holds [int]s, [_draw_card] returns an [np.int64].
    - [self.score] is a dict with the two fixed keys "player" and "dealer";
      it is modelled as a record with those two fields.  The [None] values
      [__init__] stores first are overwritten by its own call of [reset]
      before anybody can read them.
    - [self.np_random] is a NumPy [RandomState] made by gym's [seeding]
      module.  Neither is code of this repository: the generator is an
      interface ([RandomState]) whose laws are the value ranges NumPy
      documents, and every method threads the generator state explicitly.
    - Methods run in a state-and-exception monad over the engine object: a
      call returns a value, raises, or (the dealer's [while] loop only) runs
      out of fuel; the object is threaded through in all three cases, as an
      exception in Python leaves earlier mutations in place.
    - The fourth component of [step]'s result is always the empty dict and is
      left out. *)

From Stdlib Require Import ZArith List String Bool Lia QArith.
From Stdlib Require Import Ascii.
From Stdlib Require DecimalString DecimalZ DecimalPos.
Import ListNotations.
Local Open Scope Z_scope.

(** ** The randomness source *)

(** What the engine needs from [numpy.random.RandomState] and
    [gym.utils.seeding]: [randint low high] draws from the half-open range
    [low, high), [choice a p] draws an element of [a] (with weights [p], which
    a possibilistic model carries but cannot interpret), and [np_random seed]
    builds a generator from a seed and reports the seed used. *)
Class RandomState (G : Type) : Type := {
  randint : Z -> Z -> G -> Z * G;
  choice : list Z -> list Q -> G -> Z * G;
  seeding_np_random : Z -> G * Z;
  randint_range : forall low high g,
    low < high -> low <= fst (randint low high g) < high;
  choice_in : forall a p g, a <> [] -> In (fst (choice a p g)) a
}.

(** A scripted generator: an infinite tape of raw words and a cursor.  Every
    draw consumes one word.  It makes the interface inhabited and lets a proof
    pick the cards of a run. *)
Record Tape : Type := mkTape { raw : nat -> Z; cursor : nat }.

Definition tape_next (t : Tape) : Z * Tape :=
  (raw t (cursor t), mkTape (raw t) (S (cursor t))).

Definition tape_randint (low high : Z) (t : Tape) : Z * Tape :=
  let (w, t') := tape_next t in (low + w mod (high - low), t').

Definition tape_choice (a : list Z) (p : list Q) (t : Tape) : Z * Tape :=
  let (w, t') := tape_next t in
  (nth (Z.to_nat (w mod Z.of_nat (List.length a))) a 0, t').

Definition tape_of_seed (seed : Z) : Tape :=
  mkTape (fun n => (seed + 1) * 2654435761 * (Z.of_nat n + 1) / 4096) 0.

Lemma tape_randint_range (low high : Z) (t : Tape) :
  low < high -> low <= fst (tape_randint low high t) < high.
Proof.
  intros H. unfold tape_randint, tape_next. cbn [fst].
  pose proof (Z.mod_pos_bound (raw t (cursor t)) (high - low)). lia.
Qed.

Lemma tape_choice_in (a : list Z) (p : list Q) (t : Tape) :
  a <> [] -> In (fst (tape_choice a p t)) a.
Proof.
  intros Ha. unfold tape_choice, tape_next. cbn [fst].
  apply nth_In.
  assert (0 < Z.of_nat (List.length a)) by (destruct a; [congruence | cbn; lia]).
  pose proof (Z.mod_pos_bound (raw t (cursor t)) (Z.of_nat (List.length a))). lia.
Qed.

#[export] Instance Tape_RandomState : RandomState Tape := {
  randint := tape_randint;
  choice := tape_choice;
  seeding_np_random := fun seed => (tape_of_seed seed, seed);
  randint_range := tape_randint_range;
  choice_in := tape_choice_in
}.


(** ** Numbers and truth values *)

(** A number the engine holds: a Python [int], of any size, or a NumPy
    [np.int64]. *)
Inductive pynum : Type :=
| PyInt (z : Z)
| NpInt64 (z : Z).

(** The integer a number stands for. *)
Definition val (x : pynum) : Z :=
  match x with
  | PyInt z => z
  | NpInt64 z => z
  end.

(** Two's-complement wrap-around to 64 bits. *)
Definition wrap64 (z : Z) : Z := (z + 2 ^ 63) mod 2 ^ 64 - 2 ^ 63.

(** [x + c] for a card [c], which is always an [np.int64]: the sum is an
    [np.int64] whatever [x] is, computed in 64 bits.  (A Python [int] is
    converted first; the ones the engine makes are dealt by [randint(2, 11)]
    and fit with room to spare.) *)
Definition np_add (x : pynum) (c : Z) : pynum := NpInt64 (wrap64 (val x + c)).

(** [x - y]: exact on two Python [int]s, in 64 bits as soon as one side is
    an [np.int64]. *)
Definition py_sub (x y : pynum) : pynum :=
  match x, y with
  | PyInt a, PyInt b => PyInt (a - b)
  | _, _ => NpInt64 (wrap64 (val x - val y))
  end.

(** [np.sign] *)
Definition np_sign (x : pynum) : Z := Z.sgn (val x).

(** A truth value: Python's [bool], or the [np.bool_] a comparison of an
    [np.int64] yields. *)
Inductive pybool : Type :=
| PyBool (b : bool)
| NpBool (b : bool).

(** Truthiness, as [if] and [or] test it. *)
Definition truth (b : pybool) : bool :=
  match b with
  | PyBool b => b
  | NpBool b => b
  end.

(** [b is False]: identity with Python's [False] object, which no
    [np.bool_] has. *)
Definition is_False (b : pybool) : bool :=
  match b with
  | PyBool false => true
  | _ => false
  end.

(** [x < k] and [x > k] against an integer literal. *)
Definition py_lt (x : pynum) (k : Z) : pybool :=
  match x with
  | PyInt z => PyBool (z <? k)
  | NpInt64 z => NpBool (z <? k)
  end.

Definition py_gt (x : pynum) (k : Z) : pybool :=
  match x with
  | PyInt z => PyBool (z >? k)
  | NpInt64 z => NpBool (z >? k)
  end.

(** [a or b]: [a] itself when it is truthy, else [b]. *)
Definition py_or (a b : pybool) : pybool := if truth a then a else b.

(** ** Exceptions and outcomes *)

(** Both assertions of the source raise [AssertionError]; only the second
    carries a message. *)
Inductive exn : Type :=
| AssertionError (msg : option string).

Definition player_bust_msg : string := "Player already goes bust.".

Inductive outcome (A : Type) : Type :=
| Return (a : A)
| Raise (x : exn)
| OutOfFuel.

Arguments Return {A} a.
Arguments Raise {A} x.
Arguments OutOfFuel {A}.

(** ** The engine object *)

Record Score : Type := mkScore { player : pynum; dealer : pynum }.

Definition Observation : Type := (pynum * pynum)%type.

Section Engine.

Context {G : Type} `{RandomState G}.

Record Easy21 : Type := mkEasy21 { score : Score; np_random : G }.

Definition set_player (v : pynum) (self : Easy21) : Easy21 :=
  mkEasy21 (mkScore v (dealer (score self))) (np_random self).

Definition set_dealer (v : pynum) (self : Easy21) : Easy21 :=
  mkEasy21 (mkScore (player (score self)) v) (np_random self).

Definition set_np_random (g : G) (self : Easy21) : Easy21 :=
  mkEasy21 (score self) g.

(** The monad of methods. *)
Definition M (A : Type) : Type := Easy21 -> outcome A * Easy21.

Definition ret {A : Type} (a : A) : M A := fun self => (Return a, self).

Definition bind {A B : Type} (m : M A) (k : A -> M B) : M B :=
  fun self =>
    match m self with
    | (Return a, self') => k a self'
    | (Raise x, self') => (Raise x, self')
    | (OutOfFuel, self') => (OutOfFuel, self')
    end.

Definition get_player : M pynum := fun self => (Return (player (score self)), self).
Definition get_dealer : M pynum := fun self => (Return (dealer (score self)), self).
Definition put_player (v : pynum) : M unit := fun self => (Return tt, set_player v self).
Definition put_dealer (v : pynum) : M unit := fun self => (Return tt, set_dealer v self).

Definition py_assert (b : bool) (msg : option string) : M unit :=
  fun self => if b then (Return tt, self) else (Raise (AssertionError msg), self).

Definition np_randint (low high : Z) : M Z :=
  fun self =>
    let (v, g) := randint low high (np_random self) in
    (Return v, set_np_random g self).

Definition np_choice (a : list Z) (p : list Q) : M Z :=
  fun self =>
    let (v, g) := choice a p (np_random self) in
    (Return v, set_np_random g self).

End Engine.

Arguments Easy21 G : clear implicits.
Arguments M G A : clear implicits.
Arguments mkEasy21 {G} score np_random.
Arguments score {G} _.
Arguments np_random {G} _.

Declare Scope easy21_scope.
Delimit Scope easy21_scope with easy21.
Notation "x <- m ;; k" := (bind m (fun x => k))
  (at level 61, m at next level, right associativity) : easy21_scope.
Notation "m ;; k" := (bind m (fun _ => k))
  (at level 61, right associativity) : easy21_scope.
Local Open Scope easy21_scope.

Section Methods.

Context {G : Type} `{RandomState G}.

(** [spaces.Discrete(n).contains], on integers. *)
Definition Discrete_contains (n : Z) (x : Z) : bool := (0 <=? x) && (x <? n).

(** [spaces.MultiDiscrete(nvec).contains]: every coordinate within its
    bound. *)
Fixpoint MultiDiscrete_contains (nvec : list Z) (x : list Z) : bool :=
  match nvec, x with
  | [], [] => true
  | n :: nvec', v :: x' => (0 <=? v) && (v <? n) && MultiDiscrete_contains nvec' x'
  | _, _ => false
  end.

Definition action_space : Z := 2.
Definition observation_space : list Z := [22; 11].
Definition reward_range : Z * Z := (-1, 1).

Definition in_observation_space (ob : Observation) : bool :=
  MultiDiscrete_contains observation_space [val (fst ob); val (snd ob)].

(** [_get_observation] *)
Definition _get_observation : M G Observation :=
  p <- get_player ;; d <- get_dealer ;; ret (p, d).

(** [_is_bust]: [score < 1 or score > 21].  The result is a Python [bool]
    for a Python [int] and an [np.bool_] for an [np.int64]. *)
Definition _is_bust (score : pynum) : pybool := py_or (py_lt score 1) (py_gt score 21).

(** [_draw_hand]: [randint] hands back Python [int]s. *)
Definition _draw_hand : M G Observation :=
  p <- np_randint 2 11 ;;
  put_player (PyInt p) ;;
  d <- np_randint 2 11 ;;
  put_dealer (PyInt d) ;;
  _get_observation.

(** [_draw_card].  The card is an [np.int64], as [choice] picks the colour
    out of an array; only its value is carried. *)
Definition _draw_card : M G Z :=
  card_type <- np_choice [-1; 1] [3333 # 10000; 6667 # 10000]%Q ;;
  card_idx <- np_randint 2 11 ;;
  ret (card_type * card_idx).

(** [_get_reward_and_terminator].  The player's branch tests [_is_bust] for
    truthiness; the dealer's branch asserts that it [is False]. *)
Definition _get_reward_and_terminator (caller : string) : M G (Z * bool) :=
  if String.eqb caller "player" then
    p <- get_player ;;
    if truth (_is_bust p) then ret (-1, true) else ret (0, false)
  else
    p <- get_player ;;
    py_assert (is_False (_is_bust p)) (Some player_bust_msg) ;;
    d <- get_dealer ;;
    if truth (_is_bust d) then ret (1, true)
    else ret (np_sign (py_sub p d), true).

(** The dealer's turn, [while 1 <= self.score["dealer"] < 17: ...].  The
    condition is tested before any fuel is spent, so a loop that has nothing
    to do returns with no fuel at all. *)
Fixpoint dealer_loop (fuel : nat) : M G unit :=
  fun self =>
    if (1 <=? val (dealer (score self))) && (val (dealer (score self)) <? 17) then
      match fuel with
      | O => (OutOfFuel, self)
      | S fuel' =>
          (d <- get_dealer ;;
           c <- _draw_card ;;
           put_dealer (np_add d c) ;;
           dealer_loop fuel') self
      end
    else (Return tt, self).

(** [step] *)
Definition step (fuel : nat) (action : Z) : M G (Observation * Z * bool) :=
  py_assert (Discrete_contains action_space action) None ;;
  if negb (action =? 0) then
    p <- get_player ;;
    c <- _draw_card ;;
    put_player (np_add p c) ;;
    rd <- _get_reward_and_terminator "player" ;;
    ob <- _get_observation ;;
    ret (ob, fst rd, snd rd)
  else
    dealer_loop fuel ;;
    rd <- _get_reward_and_terminator "dealer" ;;
    ob <- _get_observation ;;
    ret (ob, fst rd, snd rd).

(** [reset] *)
Definition reset : M G Observation := _draw_hand.

(** [seed], called with a seed value. *)
Definition seed (s : Z) : M G (list Z) :=
  fun self =>
    let (g, s') := seeding_np_random s in
    (Return [s'], set_np_random g self).

(** [__init__]: [self.seed()] picks a seed from the operating system's
    entropy, here the argument; the score is then dealt by [reset]. *)
Definition __init__ (entropy : Z) : Easy21 G :=
  snd (reset (mkEasy21 (mkScore (PyInt 0) (PyInt 0)) (fst (seeding_np_random entropy)))).

(** [str] of an integer, as the [{}] fields of [str.format] print it, an
    [int] and an [np.int64] alike: decimal digits, a leading minus sign for
    a negative number. *)
Definition str_of_int (z : Z) : string :=
  DecimalString.NilZero.string_of_int (Z.to_int z).

(** [render].  In mode 'ansi' (the default) the method formats the two sums,
    prints the text and returns it; the engine object is only read.  In any
    other mode the call is handed to [gym.Env.render], which is not code of
    this repository: the result [None] stands for that hand-over. *)
Definition render (mode : string) (self : Easy21 G) : option string :=
  if String.eqb mode "ansi" then
    Some ("Easy21: Player " ++ str_of_int (val (player (score self)))
          ++ " vs " ++ str_of_int (val (dealer (score self))) ++ " Dealer ")%string
  else None.

(** Driving an engine: the outcomes of a sequence of [step] calls, up to and
    including the first call that does not return. *)
Fixpoint run (fuel : nat) (actions : list Z) (self : Easy21 G)
  : list (outcome (Observation * Z * bool)) :=
  match actions with
  | [] => []
  | a :: rest =>
      let (o, self') := step fuel a self in
      o :: match o with
           | Return _ => run fuel rest self'
           | _ => []
           end
  end.

(** One episode on a seeded engine: [seed(s)], [reset()], then the steps. *)
Definition episode (fuel : nat) (s : Z) (actions : list Z) (self : Easy21 G)
  : outcome Observation * list (outcome (Observation * Z * bool)) :=
  let (_, self1) := seed s self in
  let (o, self2) := reset self1 in
  (o, match o with Return _ => run fuel actions self2 | _ => [] end).

End Methods.

(** * Verification *)

(** ** Numbers *)

Lemma wrap64_small (z : Z) : - 2 ^ 63 <= z < 2 ^ 63 -> wrap64 z = z.
Proof. intros Hz. unfold wrap64. rewrite Z.mod_small; lia. Qed.

Lemma wrap64_range (z : Z) : - 2 ^ 63 <= wrap64 z < 2 ^ 63.
Proof.
  unfold wrap64. pose proof (Z.mod_pos_bound (z + 2 ^ 63) (2 ^ 64)). lia.
Qed.

(** ** Bust test *)

Lemma _is_bust_true (x : pynum) : truth (_is_bust x) = true <-> val x < 1 \/ val x > 21.
Proof.
  unfold _is_bust, py_or, py_lt, py_gt.
  destruct x as [z|z]; cbn [truth val];
    destruct (z <? 1) eqn:E1; destruct (z >? 21) eqn:E2; cbn [truth];
    rewrite ?Z.gtb_ltb in E2;
    try apply Z.ltb_lt in E1; try apply Z.ltb_ge in E1;
    try apply Z.ltb_lt in E2; try apply Z.ltb_ge in E2;
    split; intros; try discriminate; try reflexivity; lia.
Qed.

Lemma _is_bust_false (x : pynum) : truth (_is_bust x) = false <-> 1 <= val x <= 21.
Proof.
  destruct (truth (_is_bust x)) eqn:E.
  - apply _is_bust_true in E. split; [discriminate | lia].
  - split; [intros _ | reflexivity].
    destruct (Z_le_dec 1 (val x)) as [H1|H1];
      [destruct (Z_le_dec (val x) 21) as [H2|H2]; [lia|] |];
      assert (truth (_is_bust x) = true) as Ht by (apply _is_bust_true; lia);
      rewrite Ht in E; discriminate.
Qed.

(** [_is_bust(x) is False] holds for a Python [int] within [1, 21] and for
    nothing else: never for an [np.int64], whatever its value. *)
Lemma _is_bust_is_False (x : pynum) :
  is_False (_is_bust x) = true <-> exists z, x = PyInt z /\ 1 <= z <= 21.
Proof.
  unfold _is_bust, py_or, py_lt, py_gt.
  destruct x as [z|z]; cbn [truth];
    destruct (z <? 1) eqn:E1; destruct (z >? 21) eqn:E2; cbn [truth is_False];
    rewrite ?Z.gtb_ltb in E2;
    try apply Z.ltb_lt in E1; try apply Z.ltb_ge in E1;
    try apply Z.ltb_lt in E2; try apply Z.ltb_ge in E2;
    split; try discriminate;
    try (intros (z' & [= <-] & Hz); lia);
    try (intros (z' & [=] & _)).
  intros _. exists z. split; [reflexivity | lia].
Qed.

Lemma _is_bust_is_False_np (z : Z) : is_False (_is_bust (NpInt64 z)) = false.
Proof.
  destruct (is_False (_is_bust (NpInt64 z))) eqn:E; [|reflexivity].
  apply _is_bust_is_False in E as (z' & [=] & _).
Qed.

Lemma _is_bust_is_False_bust (x : pynum) :
  truth (_is_bust x) = true -> is_False (_is_bust x) = false.
Proof.
  intros Hb. destruct (is_False (_is_bust x)) eqn:E; [|reflexivity].
  apply _is_bust_is_False in E as (z & -> & Hz).
  apply _is_bust_true in Hb. cbn [val] in Hb. lia.
Qed.

Section Proofs.

Context {G : Type} `{RandomState G}.

Implicit Types (self : Easy21 G) (fuel : nat).

(** ** Drawing *)

(** A card is the product of a colour, -1 or 1, and an index between 2 and
    10; drawing touches the generator and nothing else. *)
Lemma _draw_card_shape self :
  exists card_type card_idx g,
    _draw_card self = (Return (card_type * card_idx), set_np_random g self)
    /\ (card_type = -1 \/ card_type = 1)
    /\ 2 <= card_idx <= 10.
Proof.
  unfold _draw_card, bind, np_choice, np_randint, ret.
  pose proof (choice_in [-1; 1] [3333 # 10000; 6667 # 10000]%Q (np_random self)) as Hc.
  destruct (choice _ _ (np_random self)) as [ct g1]. cbn [fst] in Hc.
  cbn [np_random set_np_random].
  pose proof (randint_range 2 11 g1) as Hr.
  destruct (randint 2 11 g1) as [idx g2]. cbn [fst] in Hr.
  exists ct, idx, g2. split; [reflexivity|]. split.
  - destruct (Hc ltac:(discriminate)) as [<- | [<- | []]]; [left | right]; reflexivity.
  - lia.
Qed.

(** The signed delta of a card is never zero and has magnitude 2 to 10. *)
Lemma _draw_card_delta self :
  exists c g,
    _draw_card self = (Return c, set_np_random g self)
    /\ 2 <= Z.abs c <= 10.
Proof.
  destruct (_draw_card_shape self) as (ct & idx & g & E & Hct & Hi).
  exists (ct * idx), g. split; [exact E|]. destruct Hct; subst ct; lia.
Qed.

(** Whatever card a draw returns has magnitude 2 to 10. *)
Lemma _draw_card_bound self c self' :
  _draw_card self = (Return c, self') -> 2 <= Z.abs c <= 10.
Proof.
  intros E. destruct (_draw_card_delta self) as (c' & g & E' & Habs).
  rewrite E' in E. injection E as <- _. exact Habs.
Qed.

(** [_draw_hand] deals two Python [int]s between 2 and 10 and stores them. *)
Lemma _draw_hand_shape self :
  exists p d g,
    _draw_hand self = (Return (PyInt p, PyInt d), mkEasy21 (mkScore (PyInt p) (PyInt d)) g)
    /\ 2 <= p <= 10 /\ 2 <= d <= 10.
Proof.
  unfold _draw_hand, _get_observation, bind, np_randint, put_player, put_dealer,
    get_player, get_dealer, ret.
  pose proof (randint_range 2 11 (np_random self)) as Hp.
  destruct (randint 2 11 (np_random self)) as [p g1]. cbn [fst snd] in *.
  cbn [np_random set_np_random set_player set_dealer score player dealer].
  pose proof (randint_range 2 11 g1) as Hd.
  destruct (randint 2 11 g1) as [d g2]. cbn [fst snd] in *.
  exists p, d, g2. cbn. repeat split; lia.
Qed.

(** ** The dealer's loop *)

Definition dealer_must_draw self : Prop := 1 <= val (dealer (score self)) < 17.

Lemma dealer_loop_stop fuel self :
  ~ dealer_must_draw self -> dealer_loop fuel self = (Return tt, self).
Proof.
  unfold dealer_must_draw. intros Hd.
  destruct fuel; cbn [dealer_loop];
    destruct (1 <=? val (dealer (score self))) eqn:E1;
    destruct (val (dealer (score self)) <? 17) eqn:E2; cbn [andb]; try reflexivity;
    apply Z.leb_le in E1; apply Z.ltb_lt in E2; lia.
Qed.

(** One turn of the loop: the card is added to the dealer's sum, which
    becomes an [np.int64]; the sum is small, so nothing wraps. *)
Lemma dealer_loop_draw fuel self c g :
  dealer_must_draw self ->
  _draw_card self = (Return c, set_np_random g self) ->
  dealer_loop (S fuel) self =
  dealer_loop fuel
    (mkEasy21 (mkScore (player (score self)) (NpInt64 (val (dealer (score self)) + c))) g).
Proof.
  unfold dealer_must_draw. intros Hd E. cbn [dealer_loop].
  replace (1 <=? val (dealer (score self))) with true by (symmetry; apply Z.leb_le; lia).
  replace (val (dealer (score self)) <? 17) with true by (symmetry; apply Z.ltb_lt; lia).
  cbn [andb]. unfold bind at 1 2 3. unfold get_dealer at 1. rewrite E.
  unfold put_dealer, np_add.
  pose proof (_draw_card_bound self c _ E) as Habs.
  rewrite wrap64_small by lia. reflexivity.
Qed.

Lemma dealer_loop_out_of_fuel self :
  dealer_must_draw self -> dealer_loop 0 self = (OutOfFuel, self).
Proof.
  unfold dealer_must_draw. intros Hd. cbn [dealer_loop].
  replace (1 <=? val (dealer (score self))) with true by (symmetry; apply Z.leb_le; lia).
  replace (val (dealer (score self)) <? 17) with true by (symmetry; apply Z.ltb_lt; lia).
  reflexivity.
Qed.

Lemma dealer_must_draw_dec self : {dealer_must_draw self} + {~ dealer_must_draw self}.
Proof.
  unfold dealer_must_draw.
  destruct (Z_le_dec 1 (val (dealer (score self))));
    destruct (Z_lt_dec (val (dealer (score self))) 17);
    (left; lia) || (right; lia).
Qed.

(** However the loop ends, it never raises, it leaves the player's sum
    alone, it returns only once the dealer's sum has left [1, 16], and it
    runs out of fuel only while the dealer still has to draw. *)
Lemma dealer_loop_outcome fuel : forall self,
  player (score (snd (dealer_loop fuel self))) = player (score self)
  /\ match fst (dealer_loop fuel self) with
     | Return _ => ~ dealer_must_draw (snd (dealer_loop fuel self))
     | OutOfFuel => dealer_must_draw (snd (dealer_loop fuel self))
     | Raise _ => False
     end.
Proof.
  induction fuel as [|fuel IH]; intros self.
  - destruct (dealer_must_draw_dec self) as [Hd|Hd].
    + rewrite dealer_loop_out_of_fuel by assumption. cbn. auto.
    + rewrite dealer_loop_stop by assumption. cbn. auto.
  - destruct (dealer_must_draw_dec self) as [Hd|Hd].
    + destruct (_draw_card_delta self) as (c & g & E & _).
      rewrite (dealer_loop_draw fuel self c g Hd E).
      specialize (IH (mkEasy21 (mkScore (player (score self))
                                  (NpInt64 (val (dealer (score self)) + c))) g)).
      exact IH.
    + rewrite dealer_loop_stop by assumption. cbn. auto.
Qed.

(** More fuel never changes a result the loop has already reached. *)
Lemma dealer_loop_more_fuel fuel : forall self self' extra,
  dealer_loop fuel self = (Return tt, self') ->
  dealer_loop (fuel + extra) self = (Return tt, self').
Proof.
  induction fuel as [|fuel IH]; intros self self' extra E.
  - destruct (dealer_must_draw_dec self) as [Hd|Hd].
    + rewrite dealer_loop_out_of_fuel in E by assumption. discriminate.
    + rewrite dealer_loop_stop in E |- * by assumption. exact E.
  - destruct (dealer_must_draw_dec self) as [Hd|Hd].
    + destruct (_draw_card_delta self) as (c & g & Ec & _).
      cbn [Nat.add]. rewrite (dealer_loop_draw fuel self c g Hd Ec) in E.
      rewrite (dealer_loop_draw (fuel + extra) self c g Hd Ec).
      apply IH. exact E.
    + rewrite dealer_loop_stop in E |- * by assumption. exact E.
Qed.

(** ** Scoring *)

Lemma _get_reward_and_terminator_player self :
  _get_reward_and_terminator "player" self =
  (Return (if truth (_is_bust (player (score self))) then (-1, true) else (0, false)), self).
Proof.
  unfold _get_reward_and_terminator. cbn [String.eqb Ascii.eqb Bool.eqb].
  unfold bind, get_player, ret. destruct (truth (_is_bust _)); reflexivity.
Qed.

Lemma _get_reward_and_terminator_other caller self :
  String.eqb caller "player" = false ->
  _get_reward_and_terminator caller self =
  if is_False (_is_bust (player (score self)))
  then (Return (if truth (_is_bust (dealer (score self))) then 1
                else np_sign (py_sub (player (score self)) (dealer (score self))), true),
        self)
  else (Raise (AssertionError (Some player_bust_msg)), self).
Proof.
  intros Hc. unfold _get_reward_and_terminator. rewrite Hc.
  unfold bind, get_player, get_dealer, py_assert, ret.
  destruct (is_False (_is_bust (player (score self)))); [|reflexivity].
  destruct (truth (_is_bust (dealer (score self)))); reflexivity.
Qed.

(** The sign of the difference of two sums that are both within [1, 21] is
    the sign of the difference of their values: nothing wraps. *)
Lemma np_sign_sub_small (x y : pynum) :
  - 2 ^ 62 <= val x < 2 ^ 62 -> - 2 ^ 62 <= val y < 2 ^ 62 ->
  np_sign (py_sub x y) = Z.sgn (val x - val y).
Proof.
  intros Hx Hy. unfold np_sign, py_sub.
  destruct x as [a|a], y as [b|b]; cbn [val] in *; try reflexivity;
    rewrite wrap64_small; try reflexivity; lia.
Qed.

(** ** Unfolding [step] *)

Lemma step_invalid fuel action self :
  Discrete_contains action_space action = false ->
  step fuel action self = (Raise (AssertionError None), self).
Proof. intros E. unfold step, bind, py_assert. rewrite E. reflexivity. Qed.

Lemma step_hit_eq fuel self c g :
  _draw_card self = (Return c, set_np_random g self) ->
  step fuel 1 self =
  (Return ((np_add (player (score self)) c, dealer (score self)),
           (if truth (_is_bust (np_add (player (score self)) c)) then -1 else 0),
           truth (_is_bust (np_add (player (score self)) c))),
   mkEasy21 (mkScore (np_add (player (score self)) c) (dealer (score self))) g).
Proof.
  intros E. unfold step. unfold bind at 1. cbn [py_assert Discrete_contains action_space
    Z.leb Z.ltb Z.compare Pos.compare Pos.compare_cont andb Z.eqb Pos.eqb negb].
  unfold bind at 1 2. unfold get_player at 1. rewrite E.
  unfold bind at 1. unfold put_player at 1.
  unfold bind at 1. rewrite _get_reward_and_terminator_player.
  unfold bind, _get_observation, get_player, get_dealer, ret.
  cbn [set_player set_np_random score player dealer np_random].
  destruct (truth (_is_bust (np_add (player (score self)) c))); reflexivity.
Qed.

Lemma step_stick_eq fuel self :
  step fuel 0 self =
  match dealer_loop fuel self with
  | (Return _, self') =>
      if is_False (_is_bust (player (score self')))
      then (Return ((player (score self'), dealer (score self')),
                    (if truth (_is_bust (dealer (score self'))) then 1
                     else np_sign (py_sub (player (score self')) (dealer (score self')))),
                    true), self')
      else (Raise (AssertionError (Some player_bust_msg)), self')
  | (Raise x, self') => (Raise x, self')
  | (OutOfFuel, self') => (OutOfFuel, self')
  end.
Proof.
  unfold step. unfold bind at 1. cbn [py_assert Discrete_contains action_space
    Z.leb Z.ltb Z.compare andb Z.eqb negb].
  unfold bind at 1. destruct (dealer_loop fuel self) as [[[]| |] self']; try reflexivity.
  unfold bind at 1. rewrite _get_reward_and_terminator_other by reflexivity.
  destruct (is_False (_is_bust (player (score self')))); [|reflexivity].
  unfold bind, _get_observation, get_player, get_dealer, ret. reflexivity.
Qed.

End Proofs.

Section Claims.

Context {G : Type} `{RandomState G}.

Implicit Types (self : Easy21 G) (fuel : nat).

(** ** [step] with Stick *)

(** Where Stick works: the player's sum is a Python [int] within [1, 21],
    that is, no card has been added to it since the deal.  Once the dealer's
    loop has returned, the call returns [done = true] with reward +1 for a
    bust dealer and the sign of [player_sum - dealer_sum] otherwise. *)
Lemma step_stick_int_player fuel self self' z :
  player (score self) = PyInt z -> 1 <= z <= 21 ->
  dealer_loop fuel self = (Return tt, self') ->
  let d := val (dealer (score self')) in
  ~ (1 <= d < 17)
  /\ step fuel 0 self =
     (Return ((PyInt z, dealer (score self')),
              (if truth (_is_bust (dealer (score self'))) then 1 else Z.sgn (z - d)),
              true), self').
Proof.
  intros Hp Hz El d.
  pose proof (dealer_loop_outcome fuel self) as [Hpl Ho].
  rewrite El in Hpl, Ho. cbn [fst snd] in Hpl, Ho.
  split; [exact Ho|].
  rewrite step_stick_eq, El, Hpl, Hp.
  replace (is_False (_is_bust (PyInt z))) with true
    by (symmetry; apply _is_bust_is_False; exists z; auto).
  destruct (truth (_is_bust (dealer (score self')))) eqn:Hb; [reflexivity|].
  apply _is_bust_false in Hb.
  rewrite np_sign_sub_small by (cbn [val]; lia). reflexivity.
Qed.

(** Once the loop has returned within some fuel, any larger fuel gives the
    same [step] result. *)
Lemma step_stick_more_fuel fuel extra self self' :
  dealer_loop fuel self = (Return tt, self') ->
  step (fuel + extra) 0 self = step fuel 0 self.
Proof.
  intros E. rewrite !step_stick_eq.
  rewrite (dealer_loop_more_fuel fuel self self' extra E), E. reflexivity.
Qed.

(** C1 (defect of the code).  Once a Hit has been played the player's sum
    is an [np.int64], and from then on a Stick never returns a reward,
    however live the sum is: [_is_bust] yields an [np.bool_], the assertion
    [... is False] of the dealer's resolution fails, and the call raises
    "Player already goes bust." as soon as the dealer's loop has returned. *)
Theorem stick_raises_for_numpy_sum fuel self z :
  player (score self) = NpInt64 z ->
  fst (step fuel 0 self) = Raise (AssertionError (Some player_bust_msg))
  \/ fst (step fuel 0 self) = OutOfFuel.
Proof.
  intros Hp. rewrite step_stick_eq.
  pose proof (dealer_loop_outcome fuel self) as [Hpl Ho].
  destruct (dealer_loop fuel self) as [[[]|x|] self']; cbn [fst snd] in *.
  - rewrite Hpl, Hp, _is_bust_is_False_np. left. reflexivity.
  - destruct Ho.
  - right. reflexivity.
Qed.

(** ** [step] with Hit *)

(** C2.  [step] with action Hit (1) draws one card and adds its signed delta
    to the player's sum, which is an [np.int64] from then on.  If the new
    sum is bust (below 1 or above 21) the call returns reward -1 and
    [done = true]; otherwise it returns reward 0 and [done = false].  Either
    way the observation is the new player sum with the unchanged dealer sum.
    The sum before the Hit is taken at least ten away from the ends of the
    64-bit range, so that the addition does not wrap. *)
Theorem step_hit_resolves fuel self :
  - 2 ^ 63 + 10 <= val (player (score self)) < 2 ^ 63 - 10 ->
  exists c g,
    _draw_card self = (Return c, set_np_random g self)
    /\ let p' := NpInt64 (val (player (score self)) + c) in
       let d := dealer (score self) in
       let self' := mkEasy21 (mkScore p' d) g in
       (val p' < 1 \/ val p' > 21 -> step fuel 1 self = (Return ((p', d), -1, true), self'))
       /\ (1 <= val p' <= 21 -> step fuel 1 self = (Return ((p', d), 0, false), self')).
Proof.
  intros Hr.
  destruct (_draw_card_delta self) as (c & g & E & Habs).
  exists c, g. split; [exact E|]. cbv zeta.
  rewrite (step_hit_eq fuel self c g E). unfold np_add.
  rewrite wrap64_small by lia. split; intros Hb.
  - apply _is_bust_true in Hb. rewrite Hb. reflexivity.
  - apply _is_bust_false in Hb. rewrite Hb. reflexivity.
Qed.

(** ** [reset] *)

Lemma reset_ignores_score (sc1 sc2 : Score) (g : G) :
  reset (mkEasy21 sc1 g) = reset (mkEasy21 sc2 g).
Proof.
  unfold reset, _draw_hand, _get_observation, bind, np_randint, put_player,
    put_dealer, get_player, get_dealer, ret. cbn [np_random].
  destruct (randint 2 11 g) as [p g1].
  cbn [np_random set_np_random set_player score].
  destruct (randint 2 11 g1) as [d g2]. reflexivity.
Qed.

(** C4.  [reset] always returns (it neither raises nor loops), its
    observation is the pair of sums it stores, both sums are Python [int]s
    in [2, 10], and the result depends on the generator alone, not on the
    score a previous episode left behind; the same holds right after seeding
    with any seed. *)
Theorem reset_deals_fresh_hand self :
  (exists p d g,
      reset self = (Return (PyInt p, PyInt d), mkEasy21 (mkScore (PyInt p) (PyInt d)) g)
      /\ 2 <= p <= 10 /\ 2 <= d <= 10)
  /\ (forall prior : Score, reset (mkEasy21 prior (np_random self)) = reset self)
  /\ (forall (s : Z) (other : Easy21 G),
        let seeded := bind (seed s) (fun _ => reset) in
        seeded other = seeded self
        /\ exists p d g,
             seeded self
               = (Return (PyInt p, PyInt d), mkEasy21 (mkScore (PyInt p) (PyInt d)) g)
             /\ 2 <= p <= 10 /\ 2 <= d <= 10).
Proof.
  split; [|split].
  - destruct (_draw_hand_shape self) as (p & d & g & E & Hp & Hd).
    exists p, d, g. auto.
  - intros prior. destruct self as [sc g]. apply reset_ignores_score.
  - intros s other seeded. subst seeded. unfold bind, seed.
    destruct (seeding_np_random s) as [g s']. unfold set_np_random. split.
    + apply reset_ignores_score.
    + destruct (_draw_hand_shape (mkEasy21 (score self) g))
        as (p & d & g' & E & Hp & Hd).
      exists p, d, g'. auto.
Qed.

(** ** The two assertions *)

Lemma Discrete_contains_2 (action : Z) :
  Discrete_contains action_space action = true <-> action = 0 \/ action = 1.
Proof.
  unfold Discrete_contains, action_space.
  rewrite andb_true_iff, Z.leb_le, Z.ltb_lt. lia.
Qed.

(** C5.  An action outside {0, 1} makes [step] raise the assertion error of
    its first line with the engine object exactly as it was: nothing is
    drawn, no sum changes, and no observation or reward comes back.  For an
    action in {0, 1} the check passes: that assertion is not the outcome. *)
Theorem step_rejects_invalid_action fuel action self :
  (action <> 0 /\ action <> 1 ->
     step fuel action self = (Raise (AssertionError None), self))
  /\ (action = 0 \/ action = 1 ->
        Discrete_contains action_space action = true
        /\ fst (step fuel action self) <> Raise (AssertionError None)).
Proof.
  split.
  - intros Ha. apply step_invalid.
    destruct (Discrete_contains action_space action) eqn:E; [|reflexivity].
    apply Discrete_contains_2 in E. lia.
  - intros Ha. split; [apply Discrete_contains_2; exact Ha|].
    destruct Ha as [-> | ->].
    + rewrite step_stick_eq.
      pose proof (dealer_loop_outcome fuel self) as [_ Ho].
      destruct (dealer_loop fuel self) as [[[]|x|] self']; cbn [fst snd] in *.
      * destruct (is_False (_is_bust (player (score self')))); cbn; discriminate.
      * destruct Ho.
      * discriminate.
    + destruct (_draw_card_delta self) as (c & g & E & _).
      rewrite (step_hit_eq fuel self c g E). cbn. discriminate.
Qed.

(** C6 (defect of the code).  Resolving the dealer's outcome
    ([_get_reward_and_terminator] called with "dealer") raises
    "Player already goes bust." when the player's sum is bust, as the claim
    says; but it raises the same error for every [np.int64] sum, bust or
    not, because the assertion compares [_is_bust]'s result with [False] by
    identity.  It returns a reward, with [done = true], only for a Python
    [int] within [1, 21]. *)
Theorem dealer_resolution_raises_for_numpy_sum self :
  let p := player (score self) in
  let raises :=
    _get_reward_and_terminator "dealer" self
    = (Raise (AssertionError (Some player_bust_msg)), self) in
  (val p < 1 \/ val p > 21 -> raises)
  /\ (forall z, p = NpInt64 z -> raises)
  /\ (forall z, p = PyInt z -> 1 <= z <= 21 ->
        exists reward,
          _get_reward_and_terminator "dealer" self = (Return (reward, true), self)
          /\ -1 <= reward <= 1).
Proof.
  intros p raises. subst raises.
  rewrite _get_reward_and_terminator_other by reflexivity. fold p.
  split; [|split].
  - intros Hb. apply _is_bust_true in Hb.
    rewrite (_is_bust_is_False_bust p Hb). reflexivity.
  - intros z ->. rewrite _is_bust_is_False_np. reflexivity.
  - intros z -> Hz.
    replace (is_False (_is_bust (PyInt z))) with true
      by (symmetry; apply _is_bust_is_False; exists z; auto).
    eexists. split; [reflexivity|].
    destruct (truth (_is_bust (dealer (score self)))); [lia|].
    unfold np_sign.
    pose proof (Z.sgn_spec (val (py_sub (PyInt z) (dealer (score self))))). lia.
Qed.

(** ** Frame *)

(** C10.  Whatever its outcome, a [step] with Hit leaves the dealer's sum as
    it was and a [step] with Stick leaves the player's sum as it was. *)
Theorem step_frame fuel self :
  dealer (score (snd (step fuel 1 self))) = dealer (score self)
  /\ player (score (snd (step fuel 0 self))) = player (score self).
Proof.
  split.
  - destruct (_draw_card_delta self) as (c & g & E & _).
    rewrite (step_hit_eq fuel self c g E). reflexivity.
  - rewrite step_stick_eq.
    pose proof (dealer_loop_outcome fuel self) as [Hpl _].
    destruct (dealer_loop fuel self) as [[[]|x|] self']; cbn [fst snd] in *;
      try exact Hpl.
    destruct (is_False (_is_bust (player (score self')))); exact Hpl.
Qed.

(** ** Determinism *)

(** C9.  Take any seed, any list of actions and any two engine objects,
    whatever their history.  Seeding both with that seed and playing the
    same episode on each ([reset], then the same [step] calls with the same
    fuel) yields the same first observation and the same sequence of
    [step] outcomes: observations, rewards and done flags, and the same
    error if a call raises. *)
Theorem seeded_episodes_agree fuel (s : Z) (actions : list Z) (e1 e2 : Easy21 G) :
  episode fuel s actions e1 = episode fuel s actions e2.
Proof.
  unfold episode, seed.
  destruct (seeding_np_random s) as [g s'].
  unfold set_np_random.
  rewrite (reset_ignores_score (score e1) (score e2) g). reflexivity.
Qed.

End Claims.

(** ** The dealer's loop: progress and termination *)

Section Progress.

Context {G : Type} `{RandomState G}.

Implicit Types (self : Easy21 G).

(** The card [_draw_card] yields on generator [g], and the generator after
    it. *)
Definition drawn (g : G) : Z * G :=
  let (card_type, g1) := choice [-1; 1] [3333 # 10000; 6667 # 10000]%Q g in
  let (card_idx, g2) := randint 2 11 g1 in
  (card_type * card_idx, g2).

Lemma _draw_card_drawn self :
  _draw_card self =
  (Return (fst (drawn (np_random self))), set_np_random (snd (drawn (np_random self))) self).
Proof.
  unfold _draw_card, drawn, bind, np_choice, np_randint, ret.
  destruct (choice _ _ (np_random self)) as [ct g1].
  cbn [np_random set_np_random].
  destruct (randint 2 11 g1) as [idx g2]. reflexivity.
Qed.

(** The next [n] cards of generator [g] are all black. *)
Fixpoint all_black (n : nat) (g : G) : Prop :=
  match n with
  | O => True
  | S n' => 0 < fst (drawn g) /\ all_black n' (snd (drawn g))
  end.

Lemma black_run_returns n : forall self,
  all_black n (np_random self) ->
  17 - val (dealer (score self)) <= 2 * Z.of_nat n \/ val (dealer (score self)) < 1 ->
  exists self', dealer_loop n self = (Return tt, self') /\ ~ dealer_must_draw self'.
Proof.
  induction n as [|n IH]; intros self Hb Hd.
  - exists self. assert (~ dealer_must_draw self) by (unfold dealer_must_draw; lia).
    split; [apply dealer_loop_stop|]; assumption.
  - destruct (dealer_must_draw_dec self) as [Hm|Hm].
    + destruct Hb as [Hc Hb].
      destruct (_draw_card_delta self) as (c & g & E & Habs).
      pose proof (_draw_card_drawn self) as E'. rewrite E in E'.
      injection E' as Ec Eg.
      rewrite <- Ec in Hc. rewrite <- Eg in Hb.
      rewrite (dealer_loop_draw n self c g Hm E).
      apply IH; cbn [np_random score dealer val]; [exact Hb|].
      unfold dealer_must_draw in Hm. lia.
    + exists self. split; [apply dealer_loop_stop|]; assumption.
Qed.

(** One iteration of the loop, and the run of black cards. *)
Lemma dealer_loop_one_iteration self :
  dealer_must_draw self ->
  exists c g,
    _draw_card self = (Return c, set_np_random g self)
    /\ 2 <= Z.abs c <= 10
    /\ (forall fuel,
          dealer_loop (S fuel) self =
          dealer_loop fuel
            (mkEasy21 (mkScore (player (score self))
                         (NpInt64 (val (dealer (score self)) + c))) g))
    /\ ((0 < c /\ val (dealer (score self)) < val (dealer (score self)) + c)
        \/ (c < 0 /\ val (dealer (score self)) + c < val (dealer (score self)))).
Proof.
  intros Hm. destruct (_draw_card_delta self) as (c & g & E & Habs).
  exists c, g. split; [exact E|]. split; [exact Habs|]. split.
  - intros fuel. apply dealer_loop_draw; assumption.
  - lia.
Qed.

Lemma eight_black_cards_suffice self :
  all_black 8 (np_random self) ->
  exists self', dealer_loop 8 self = (Return tt, self') /\ ~ dealer_must_draw self'.
Proof.
  intros Hb. apply black_run_returns; [exact Hb|].
  destruct (Z_lt_dec (val (dealer (score self))) 1);
    [right; assumption | left; change (Z.of_nat 8) with 8; lia].
Qed.

(** ** Observations while the episode is in progress *)

(** [playing e ob]: engine [e] was reached by a [reset] followed by [step]
    calls that all returned [done = false], and [ob] is the observation the
    last of these calls returned. *)
Inductive playing : Easy21 G -> Observation -> Prop :=
| playing_reset e0 ob e :
    reset e0 = (Return ob, e) -> playing e ob
| playing_step e ob0 fuel action ob reward e' :
    playing e ob0 ->
    step fuel action e = (Return (ob, reward, false), e') ->
    playing e' ob.

Lemma playing_invariant e ob :
  playing e ob ->
  ob = (player (score e), dealer (score e))
  /\ 1 <= val (player (score e)) <= 21 /\ 2 <= val (dealer (score e)) <= 10.
Proof.
  induction 1 as [e0 ob e E | e ob0 fuel action ob reward e' Hp IH E].
  - destruct (_draw_hand_shape e0) as (p & d & g & E' & Hp & Hd).
    unfold reset in E. rewrite E' in E. injection E as <- <-. cbn.
    split; [reflexivity | lia].
  - destruct IH as (_ & Hpl & Hdl).
    destruct (Discrete_contains action_space action) eqn:Ea.
    + apply Discrete_contains_2 in Ea. destruct Ea as [-> | ->].
      * rewrite step_stick_eq in E.
        destruct (dealer_loop fuel e) as [[[]|x|] e1]; try discriminate.
        destruct (is_False (_is_bust (player (score e1)))); discriminate.
      * destruct (_draw_card_delta e) as (c & g & Ec & _).
        rewrite (step_hit_eq fuel e c g Ec) in E.
        injection E as <- _ Hb <-. cbn [score player dealer].
        apply _is_bust_false in Hb. split; [reflexivity | lia].
    + rewrite step_invalid in E by assumption. discriminate.
Qed.

(** C8 (amended).  Every observation returned by [reset], and every
    observation returned by a [step] with [done = false] in an episode
    started by [reset], lies in the declared observation space
    [MultiDiscrete([22, 11])]: it is the pair of current sums, with the
    player's in [1, 21] and the dealer's in [2, 10]. *)
Theorem observation_in_space_while_playing e ob :
  playing e ob ->
  in_observation_space ob = true
  /\ ob = (player (score e), dealer (score e))
  /\ 1 <= val (fst ob) <= 21 /\ 2 <= val (snd ob) <= 10.
Proof.
  intros Hp. destruct (playing_invariant e ob Hp) as (-> & Hpl & Hdl).
  split; [|split; [reflexivity | cbn [fst snd]; lia]].
  unfold in_observation_space, observation_space. cbn [fst snd MultiDiscrete_contains].
  rewrite !andb_true_iff, !Z.leb_le, !Z.ltb_lt. lia.
Qed.

End Progress.

(** * Runs on scripted generators *)

(** On a tape, a card takes two words: the first picks the colour, the second
    the index. *)
Lemma tape_draw_card (sc : Score) (f : nat -> Z) (c : nat) :
  _draw_card (mkEasy21 sc (mkTape f c)) =
  (Return (nth (Z.to_nat (f c mod 2)) [-1; 1] 0 * (2 + f (S c) mod 9)),
   mkEasy21 sc (mkTape f (S (S c)))).
Proof. reflexivity. Qed.

(** ** The cards of the deck *)

(** A tape whose first card has the given colour word and index. *)
Definition one_card (colour index : Z) : Tape :=
  mkTape (fun n => match n with O => colour | _ => index - 2 end) 0.

(** C3 (amended).  Every in-game card ([_draw_card], used by hits and by the
    dealer) is the product of a colour, +1 for black or -1 for red, and a
    magnitude that [randint(2, 11)] draws from [2, 10], the range of the
    initial deal; so the signed delta is +magnitude for black and -magnitude
    for red, and a delta of magnitude 1 never occurs.  Each magnitude from 2
    to 10, in either colour, is the card of some state of a randomness
    source. *)
Theorem draw_card_magnitude :
  (forall (G : Type) (R : RandomState G) (self : Easy21 G),
      exists card_type magnitude g,
        _draw_card self = (Return (card_type * magnitude), set_np_random g self)
        /\ (card_type = -1 \/ card_type = 1)
        /\ 2 <= magnitude <= 10
        /\ Z.abs (card_type * magnitude) = magnitude
        /\ Z.abs (card_type * magnitude) <> 1)
  /\ (forall magnitude sc,
        2 <= magnitude <= 10 ->
        fst (_draw_card (mkEasy21 sc (one_card 1 magnitude))) = Return magnitude
        /\ fst (_draw_card (mkEasy21 sc (one_card 0 magnitude))) = Return (- magnitude)).
Proof.
  split.
  - intros G R self.
    destruct (_draw_card_shape self) as (ct & idx & g & E & Hct & Hi).
    exists ct, idx, g. repeat split; try assumption; try lia;
      destruct Hct; subst ct; lia.
  - intros m sc Hm. unfold one_card. rewrite !tape_draw_card. cbn [fst].
    replace ((m - 2) mod 9) with (m - 2) by (symmetry; apply Z.mod_small; lia).
    change (Z.to_nat (1 mod 2)) with 1%nat. change (Z.to_nat (0 mod 2)) with 0%nat.
    cbn [nth]. split; f_equal; lia.
Qed.

(** C3, as stated, fails: no state of any randomness source makes
    [_draw_card] return a delta of magnitude 1. *)
Lemma no_card_of_magnitude_one :
  ~ exists (G : Type) (R : RandomState G) (self : Easy21 G) (c : Z),
      fst (_draw_card self) = Return c /\ Z.abs c = 1.
Proof.
  intros (G & R & self & c & E & Hc).
  destruct (_draw_card_delta self) as (c' & g & E' & Habs).
  rewrite E' in E. cbn [fst] in E. injection E as ->. lia.
Qed.

(** ** A dealer who never stops *)

(** Colour and index words for the cards -2, +2, -2, +2, ... *)
Fixpoint red_black_twos (n : nat) : Z :=
  match n with
  | S (S (S (S m))) => red_black_twos m
  | 2%nat => 1
  | _ => 0
  end.

(** The cursor stands at the start of a period of the tape. *)
Definition aligned (c : nat) : Prop :=
  forall i, red_black_twos (c + i) = red_black_twos i.

Lemma aligned_0 : aligned 0.
Proof. intros i. reflexivity. Qed.

Lemma aligned_next (c : nat) : aligned c -> aligned (S (S (S (S c)))).
Proof. intros Hc i. cbn [Nat.add red_black_twos]. apply Hc. Qed.

Lemma red_then_black (sc sc' : Score) (c : nat) :
  aligned c ->
  _draw_card (mkEasy21 sc (mkTape red_black_twos c))
    = (Return (-2), mkEasy21 sc (mkTape red_black_twos (S (S c))))
  /\ _draw_card (mkEasy21 sc' (mkTape red_black_twos (S (S c))))
    = (Return 2, mkEasy21 sc' (mkTape red_black_twos (S (S (S (S c)))))).
Proof.
  intros Hc. rewrite !tape_draw_card.
  pose proof (Hc 0%nat) as H0. pose proof (Hc 1%nat) as H1.
  pose proof (Hc 2%nat) as H2. pose proof (Hc 3%nat) as H3.
  rewrite Nat.add_0_r in H0.
  replace (c + 1)%nat with (S c) in H1 by lia.
  replace (c + 2)%nat with (S (S c)) in H2 by lia.
  replace (c + 3)%nat with (S (S (S c))) in H3 by lia.
  rewrite H0, H1, H2, H3. split; reflexivity.
Qed.

(** With a dealer's sum of 5 at the start of a period, or of 3 in the middle
    of one, the loop is still drawing when any amount of fuel is spent. *)
Lemma red_black_never_returns (p : pynum) (fuel : nat) : forall c d5 d3,
  aligned c -> val d5 = 5 -> val d3 = 3 ->
  fst (dealer_loop fuel (mkEasy21 (mkScore p d5) (mkTape red_black_twos c))) = OutOfFuel
  /\ fst (dealer_loop fuel (mkEasy21 (mkScore p d3) (mkTape red_black_twos (S (S c)))))
     = OutOfFuel.
Proof.
  induction fuel as [|fuel IH]; intros c d5 d3 Hc H5 H3.
  - split; rewrite dealer_loop_out_of_fuel; try reflexivity;
      unfold dealer_must_draw; cbn [score dealer]; lia.
  - destruct (red_then_black (mkScore p d5) (mkScore p d3) c Hc) as [Er Eb]. split.
    + rewrite (dealer_loop_draw fuel _ (-2) (mkTape red_black_twos (S (S c))));
        [| unfold dealer_must_draw; cbn [score dealer]; lia | exact Er].
      cbn [score player dealer].
      apply (proj2 (IH c d5 (NpInt64 (val d5 + -2)) Hc H5 ltac:(cbn [val]; lia))).
    + rewrite (dealer_loop_draw fuel _ 2 (mkTape red_black_twos (S (S (S (S c))))));
        [| unfold dealer_must_draw; cbn [score dealer]; lia | exact Eb].
      cbn [score player dealer].
      apply (proj1 (IH _ (NpInt64 (val d3 + 2)) d3 (aligned_next c Hc)
                      ltac:(cbn [val]; lia) H3)).
Qed.

(** C7 (amended).  While the dealer must draw, one iteration of the loop
    adds to the dealer's sum a card of magnitude 2 to 10 and goes round
    again: the sum strictly increases on a black card and strictly decreases
    on a red one.  When the next eight cards are all black the loop returns
    within eight iterations, with the dealer's sum outside [1, 16].  No
    bound holds for every sequence of cards: on some generator the loop is
    still drawing after any number of iterations. *)
Theorem dealer_loop_iteration :
  (forall (G : Type) (R : RandomState G) (self : Easy21 G),
      (dealer_must_draw self ->
         exists c g,
           _draw_card self = (Return c, set_np_random g self)
           /\ 2 <= Z.abs c <= 10
           /\ (forall fuel,
                 dealer_loop (S fuel) self =
                 dealer_loop fuel
                   (mkEasy21 (mkScore (player (score self))
                                (NpInt64 (val (dealer (score self)) + c))) g))
           /\ ((0 < c /\ val (dealer (score self)) < val (dealer (score self)) + c)
               \/ (c < 0 /\ val (dealer (score self)) + c < val (dealer (score self)))))
      /\ (all_black 8 (np_random self) ->
            exists self',
              dealer_loop 8 self = (Return tt, self') /\ ~ dealer_must_draw self'))
  /\ (exists self : Easy21 Tape, forall fuel, fst (dealer_loop fuel self) = OutOfFuel).
Proof.
  split.
  - intros G R self. split.
    + apply dealer_loop_one_iteration.
    + apply eight_black_cards_suffice.
  - exists (mkEasy21 (mkScore (PyInt 10) (PyInt 5)) (mkTape red_black_twos 0)).
    intros fuel.
    apply (proj1 (red_black_never_returns (PyInt 10) fuel 0 (PyInt 5) (NpInt64 3)
                    aligned_0 eq_refl eq_refl)).
Qed.

(** C7, as stated, fails.  From dealer sum 5 with the cards -2, +2, -2, ...
    the first iteration lowers the sum to 3, which is not bust, so the loop
    goes on; and no number of iterations ends it. *)
Lemma dealer_loop_unbounded :
  let self := mkEasy21 (mkScore (PyInt 10) (PyInt 5)) (mkTape red_black_twos 0) in
  dealer_loop 1 self
    = (OutOfFuel, mkEasy21 (mkScore (PyInt 10) (NpInt64 3)) (mkTape red_black_twos 2))
  /\ truth (_is_bust (NpInt64 3)) = false
  /\ forall fuel, fst (dealer_loop fuel self) = OutOfFuel.
Proof.
  cbv zeta. split; [reflexivity|]. split; [reflexivity|].
  intros fuel.
  apply (proj1 (red_black_never_returns (PyInt 10) fuel 0 (PyInt 5) (NpInt64 3)
                  aligned_0 eq_refl eq_refl)).
Qed.

(** ** Observations outside the declared space *)

(** Every word is 1: each deal is a 3 and each card a black 3. *)
Definition black_threes : Tape := mkTape (fun _ => 1) 0.

(** C8, as stated, fails.  On a generator that deals 3s, [reset] gives
    (3, 3); a Stick then takes the dealer to 18, beyond the 11 values
    declared for the dealer's coordinate; and seven Hits instead take the
    player to 24, beyond the 22 values declared for the player's. *)
Lemma terminal_observations_outside_space :
  exists e,
    reset (mkEasy21 (mkScore (PyInt 0) (PyInt 0)) black_threes)
      = (Return (PyInt 3, PyInt 3), e)
    /\ fst (step 5 0 e) = Return ((PyInt 3, NpInt64 18), -1, true)
    /\ in_observation_space (PyInt 3, NpInt64 18) = false
    /\ last (run 0 [1; 1; 1; 1; 1; 1; 1] e) OutOfFuel
       = Return ((NpInt64 24, PyInt 3), -1, true)
    /\ in_observation_space (NpInt64 24, PyInt 3) = false.
Proof.
  eexists. split; [reflexivity|]. repeat split; reflexivity.
Qed.

(** * The checks of the source's own test block *)

Example test_is_bust :
  is_False (_is_bust (PyInt 1)) = true /\ is_False (_is_bust (PyInt 21)) = true
  /\ _is_bust (PyInt 0) = PyBool true /\ _is_bust (PyInt 22) = PyBool true.
Proof. repeat split; reflexivity. Qed.

Example test_reward_and_terminator (t : Tape) :
  let engine p d := mkEasy21 (mkScore (PyInt p) (PyInt d)) t in
  fst (_get_reward_and_terminator "player" (engine 5 5)) = Return (0, false)
  /\ fst (_get_reward_and_terminator "dealer" (engine 5 5)) = Return (0, true)
  /\ fst (_get_reward_and_terminator "player" (engine 22 5)) = Return (-1, true)
  /\ fst (_get_reward_and_terminator "dealer" (engine 22 5))
     = Raise (AssertionError (Some player_bust_msg))
  /\ fst (_get_reward_and_terminator "dealer" (engine 14 5)) = Return (1, true)
  /\ fst (_get_reward_and_terminator "dealer" (engine 14 19)) = Return (-1, true)
  /\ fst (_get_reward_and_terminator "dealer" (engine 14 0)) = Return (1, true).
Proof. repeat split; reflexivity. Qed.

Example test_invalid_action :
  run 8 [0; 1; 3; 1] (mkEasy21 (mkScore (PyInt 5) (PyInt 17)) black_threes)
  = [Return ((PyInt 5, PyInt 17), -1, true);
     Return ((NpInt64 8, PyInt 17), 0, false);
     Raise (AssertionError None)].
Proof. reflexivity. Qed.

(** * Instances of the theorems on concrete engines *)

(** The engine right after [reset] on [black_threes]: both sums 3, two words
    consumed. *)
Definition dealt_threes : Easy21 Tape :=
  mkEasy21 (mkScore (PyInt 3) (PyInt 3)) (mkTape (fun _ => 1) 2).

(** The same engine after one Hit: the player's sum is now the [np.int64]
    6. *)
Definition hit_threes : Easy21 Tape :=
  mkEasy21 (mkScore (NpInt64 6) (PyInt 3)) (mkTape (fun _ => 1) 4).

Lemma stick_raises_for_numpy_sum_witness :
  step 0 1 dealt_threes = (Return ((NpInt64 6, PyInt 3), 0, false), hit_threes)
  /\ truth (_is_bust (NpInt64 6)) = false
  /\ step 5 0 hit_threes
     = (Raise (AssertionError (Some player_bust_msg)),
        mkEasy21 (mkScore (NpInt64 6) (NpInt64 18)) (mkTape (fun _ => 1) 14))
  /\ (fst (step 5 0 hit_threes) = Raise (AssertionError (Some player_bust_msg))
      \/ fst (step 5 0 hit_threes) = OutOfFuel).
Proof.
  split; [reflexivity|]. split; [reflexivity|]. split; [reflexivity|].
  exact (@stick_raises_for_numpy_sum Tape Tape_RandomState 5%nat hit_threes 6 eq_refl).
Defined.

Lemma step_hit_resolves_witness :
  step 0 1 dealt_threes = (Return ((NpInt64 6, PyInt 3), 0, false), hit_threes)
  /\ step 0 1 (mkEasy21 (mkScore (NpInt64 20) (PyInt 3)) (mkTape (fun _ => 1) 4))
    = (Return ((NpInt64 23, PyInt 3), -1, true),
       mkEasy21 (mkScore (NpInt64 23) (PyInt 3)) (mkTape (fun _ => 1) 6)).
Proof.
  split.
  - destruct (@step_hit_resolves Tape Tape_RandomState 0%nat dealt_threes
                ltac:(cbn; lia))
      as (c & g & E & _ & Hlive).
    unfold dealt_threes in *. rewrite tape_draw_card in E. injection E as <- <-.
    apply Hlive. cbn. lia.
  - destruct (@step_hit_resolves Tape Tape_RandomState 0%nat
                (mkEasy21 (mkScore (NpInt64 20) (PyInt 3)) (mkTape (fun _ => 1) 4))
                ltac:(cbn; lia))
      as (c & g & E & Hbust & _).
    rewrite tape_draw_card in E. injection E as <- <-.
    apply Hbust. cbn. lia.
Defined.

Lemma step_rejects_invalid_action_witness :
  step 5 3 dealt_threes = (Raise (AssertionError None), dealt_threes)
  /\ step 5 (-1) dealt_threes = (Raise (AssertionError None), dealt_threes)
  /\ fst (step 5 1 dealt_threes) <> Raise (AssertionError None)
  /\ fst (step 5 0 dealt_threes) <> Raise (AssertionError None).
Proof.
  split; [|split; [|split]].
  - apply (proj1 (@step_rejects_invalid_action Tape Tape_RandomState 5%nat 3 dealt_threes)). lia.
  - apply (proj1 (@step_rejects_invalid_action Tape Tape_RandomState 5%nat (-1) dealt_threes)). lia.
  - apply (proj2 (@step_rejects_invalid_action Tape Tape_RandomState 5%nat 1 dealt_threes)). lia.
  - apply (proj2 (@step_rejects_invalid_action Tape Tape_RandomState 5%nat 0 dealt_threes)). lia.
Defined.

Lemma dealer_resolution_raises_for_numpy_sum_witness :
  truth (_is_bust (NpInt64 6)) = false
  /\ _get_reward_and_terminator "dealer"
       (mkEasy21 (mkScore (NpInt64 6) (NpInt64 18)) black_threes)
     = (Raise (AssertionError (Some player_bust_msg)),
        mkEasy21 (mkScore (NpInt64 6) (NpInt64 18)) black_threes)
  /\ exists reward,
       _get_reward_and_terminator "dealer"
         (mkEasy21 (mkScore (PyInt 6) (NpInt64 18)) black_threes)
       = (Return (reward, true), mkEasy21 (mkScore (PyInt 6) (NpInt64 18)) black_threes)
       /\ -1 <= reward <= 1.
Proof.
  split; [reflexivity|]. split.
  - exact (proj1 (proj2 (dealer_resolution_raises_for_numpy_sum
                           (mkEasy21 (mkScore (NpInt64 6) (NpInt64 18)) black_threes)))
             6 eq_refl).
  - apply (proj2 (proj2 (dealer_resolution_raises_for_numpy_sum
                           (mkEasy21 (mkScore (PyInt 6) (NpInt64 18)) black_threes)))
             6 eq_refl).
    lia.
Defined.

Lemma draw_card_magnitude_witness :
  fst (_draw_card (mkEasy21 (mkScore (PyInt 3) (PyInt 3)) (one_card 1 7))) = Return 7
  /\ fst (_draw_card (mkEasy21 (mkScore (PyInt 3) (PyInt 3)) (one_card 0 7))) = Return (-7).
Proof.
  apply (proj2 draw_card_magnitude 7 (mkScore (PyInt 3) (PyInt 3))). lia.
Defined.

Lemma dealer_loop_iteration_witness :
  (exists c g,
      _draw_card dealt_threes = (Return c, set_np_random g dealt_threes)
      /\ 2 <= Z.abs c <= 10
      /\ (forall fuel,
            dealer_loop (S fuel) dealt_threes =
            dealer_loop fuel (mkEasy21 (mkScore (PyInt 3) (NpInt64 (3 + c))) g))
      /\ ((0 < c /\ 3 < 3 + c) \/ (c < 0 /\ 3 + c < 3)))
  /\ exists self',
       dealer_loop 8 dealt_threes = (Return tt, self') /\ ~ dealer_must_draw self'.
Proof.
  split.
  - apply (proj1 (proj1 dealer_loop_iteration Tape Tape_RandomState dealt_threes)).
    unfold dealer_must_draw. cbn. lia.
  - apply (proj2 (proj1 dealer_loop_iteration Tape Tape_RandomState dealt_threes)).
    cbn. repeat split; lia.
Defined.

Lemma observation_in_space_while_playing_witness :
  playing hit_threes (NpInt64 6, PyInt 3)
  /\ in_observation_space (NpInt64 6, PyInt 3) = true.
Proof.
  assert (Hp : playing hit_threes (NpInt64 6, PyInt 3)).
  { apply (@playing_step Tape Tape_RandomState dealt_threes (PyInt 3, PyInt 3)
             0%nat 1 (NpInt64 6, PyInt 3) 0).
    - apply (@playing_reset Tape Tape_RandomState
               (mkEasy21 (mkScore (PyInt 0) (PyInt 0)) black_threes)).
      reflexivity.
    - reflexivity. }
  split; [exact Hp|].
  exact (proj1 (@observation_in_space_while_playing Tape Tape_RandomState _ _ Hp)).
Defined.

(** * Further properties of the engine *)

Section Episode.

Context {G : Type} `{RandomState G}.

Implicit Types (self : Easy21 G) (fuel : nat).

(** What a returning [step] has done: a Hit that drew one card, or a Stick
    whose loop returned and whose player holds a Python [int] within
    [1, 21]. *)
Lemma step_returns_inv fuel action self ob reward done self' :
  step fuel action self = (Return (ob, reward, done), self') ->
  (action = 1
   /\ exists c g,
        _draw_card self = (Return c, set_np_random g self)
        /\ 2 <= Z.abs c <= 10
        /\ self' = mkEasy21 (mkScore (np_add (player (score self)) c) (dealer (score self))) g
        /\ ob = (np_add (player (score self)) c, dealer (score self))
        /\ reward = (if truth (_is_bust (np_add (player (score self)) c)) then -1 else 0)
        /\ done = truth (_is_bust (np_add (player (score self)) c)))
  \/ (action = 0
      /\ dealer_loop fuel self = (Return tt, self')
      /\ ~ dealer_must_draw self'
      /\ player (score self') = player (score self)
      /\ (exists z, player (score self) = PyInt z /\ 1 <= z <= 21
                    /\ reward = (if truth (_is_bust (dealer (score self'))) then 1
                                 else Z.sgn (z - val (dealer (score self')))))
      /\ ob = (player (score self), dealer (score self'))
      /\ done = true).
Proof.
  intros E.
  destruct (Discrete_contains action_space action) eqn:Ea.
  - apply Discrete_contains_2 in Ea. destruct Ea as [-> | ->].
    + right. split; [reflexivity|].
      rewrite step_stick_eq in E.
      pose proof (dealer_loop_outcome fuel self) as [Hpl Ho].
      destruct (dealer_loop fuel self) as [[[]|x|] e1]; cbn [fst snd] in *;
        try discriminate.
      destruct (is_False (_is_bust (player (score e1)))) eqn:Hb; [|discriminate].
      injection E as <- <- <- <-. rewrite Hpl in Hb |- *.
      apply _is_bust_is_False in Hb as (z & Hz & Hr). rewrite Hz.
      repeat split; auto.
      exists z. repeat split; try lia.
      destruct (truth (_is_bust (dealer (score e1)))) eqn:Hd; [reflexivity|].
      apply _is_bust_false in Hd.
      rewrite np_sign_sub_small by (cbn [val]; lia). reflexivity.
    + left. split; [reflexivity|].
      destruct (_draw_card_delta self) as (c & g & Ec & Habs).
      rewrite (step_hit_eq fuel self c g Ec) in E.
      injection E as <- <- <- <-.
      exists c, g. repeat split; auto; lia.
  - rewrite step_invalid in E by assumption. discriminate.
Qed.

(** A card added to a sum well inside the 64-bit range does not wrap. *)
Lemma np_add_small (x : pynum) (c : Z) :
  - 2 ^ 62 <= val x < 2 ^ 62 -> 2 <= Z.abs c <= 10 ->
  np_add x c = NpInt64 (val x + c).
Proof. intros Hx Hc. unfold np_add. rewrite wrap64_small by lia. reflexivity. Qed.

(** ** Rewards and the done flag *)

(** X1.  Every reward [step] returns lies in the declared [reward_range], and is
    one of -1, 0 and 1. *)
Theorem step_reward_in_range fuel action self ob reward done self' :
  step fuel action self = (Return (ob, reward, done), self') ->
  fst reward_range <= reward <= snd reward_range
  /\ (reward = -1 \/ reward = 0 \/ reward = 1).
Proof.
  intros E. cbn [reward_range fst snd].
  destruct (step_returns_inv _ _ _ _ _ _ _ E)
    as [(_ & c & g & _ & _ & _ & _ & -> & _) | (_ & _ & _ & _ & (z & _ & _ & ->) & _)].
  - destruct (truth _); lia.
  - destruct (truth _); [lia|].
    pose proof (Z.sgn_spec (z - val (dealer (score self')))). lia.
Qed.

(** X2.  [done] is true exactly when the action was Stick or the returned
    observation shows a bust player; a call that returns [done = false] was a
    Hit, has reward 0 and shows a player sum within [1, 21]. *)
Theorem step_done_iff fuel action self ob reward done self' :
  step fuel action self = (Return (ob, reward, done), self') ->
  (done = true <-> action = 0 \/ val (fst ob) < 1 \/ val (fst ob) > 21)
  /\ (done = false -> action = 1 /\ reward = 0 /\ 1 <= val (fst ob) <= 21)
  /\ (reward <> 0 -> done = true).
Proof.
  intros E.
  destruct (step_returns_inv _ _ _ _ _ _ _ E)
    as [(-> & c & g & _ & _ & _ & -> & -> & ->) | (-> & _ & _ & _ & _ & -> & ->)];
    cbn [fst snd].
  - destruct (truth (_is_bust (np_add (player (score self)) c))) eqn:Hb.
    + apply _is_bust_true in Hb. split; [|split].
      * split; [intros _; right; exact Hb | reflexivity].
      * discriminate.
      * reflexivity.
    + apply _is_bust_false in Hb. split; [|split].
      * split; [discriminate | intros [? | ?]; [discriminate | lia]].
      * intros _. split; [reflexivity | split; [reflexivity | exact Hb]].
      * intros Hr. contradiction Hr. reflexivity.
  - split; [|split].
    + split; [intros _; left; reflexivity | reflexivity].
    + discriminate.
    + reflexivity.
Qed.

(** X3.  The observation [reset] and [step] return is the pair of sums the engine
    object holds when the call returns. *)
Theorem returned_observation_is_score fuel action self :
  (forall ob self',
      reset self = (Return ob, self') ->
      ob = (player (score self'), dealer (score self')))
  /\ (forall ob reward done self',
        step fuel action self = (Return (ob, reward, done), self') ->
        ob = (player (score self'), dealer (score self'))).
Proof.
  split.
  - intros ob self' E.
    destruct (_draw_hand_shape self) as (p & d & g & E' & _).
    unfold reset in E. rewrite E' in E. injection E as <- <-. reflexivity.
  - intros ob reward done self' E.
    destruct (step_returns_inv _ _ _ _ _ _ _ E)
      as [(_ & c & g & _ & _ & -> & -> & _) | (_ & _ & _ & Hpl & _ & -> & _)].
    + reflexivity.
    + rewrite Hpl. reflexivity.
Qed.

(** ** The reward query *)

(** X4.  [_get_reward_and_terminator] only reads the engine object, whoever the
    caller is and whether or not it raises; and every caller other than
    "player" is resolved as the dealer. *)
Theorem reward_query_is_pure (caller : string) self :
  snd (_get_reward_and_terminator caller self) = self
  /\ (caller <> "player"%string ->
      _get_reward_and_terminator caller self = _get_reward_and_terminator "dealer" self).
Proof.
  split.
  - destruct (String.eqb caller "player") eqn:Ec.
    + apply String.eqb_eq in Ec. subst caller.
      rewrite _get_reward_and_terminator_player. reflexivity.
    + rewrite _get_reward_and_terminator_other by assumption.
      destruct (is_False (_is_bust (player (score self)))); reflexivity.
  - intros Hc. apply String.eqb_neq in Hc.
    rewrite (_get_reward_and_terminator_other caller self Hc).
    rewrite (_get_reward_and_terminator_other "dealer" self) by reflexivity.
    reflexivity.
Qed.

(** ** Sticking *)

(** A Stick with nothing to draw and a Python [int] within [1, 21]. *)
Lemma stick_stands fuel self z :
  ~ dealer_must_draw self ->
  player (score self) = PyInt z -> 1 <= z <= 21 ->
  step fuel 0 self =
  (Return ((PyInt z, dealer (score self)),
           (if truth (_is_bust (dealer (score self))) then 1
            else Z.sgn (z - val (dealer (score self)))),
           true), self).
Proof.
  intros Hd Hp Hz.
  rewrite step_stick_eq, (dealer_loop_stop fuel self Hd), Hp.
  replace (is_False (_is_bust (PyInt z))) with true
    by (symmetry; apply _is_bust_is_False; exists z; auto).
  destruct (truth (_is_bust (dealer (score self)))) eqn:Hb; [reflexivity|].
  apply _is_bust_false in Hb.
  rewrite np_sign_sub_small by (cbn [val]; lia). reflexivity.
Qed.

(** X5.  When the dealer's sum is already outside [1, 16], a Stick draws
    nothing and leaves the engine object exactly as it was, with any fuel.
    It returns the score of the sums as they stand when the player's sum is
    a Python [int] within [1, 21], and raises "Player already goes bust."
    when that sum is bust or is an [np.int64]. *)
Theorem stick_without_draw fuel self :
  ~ dealer_must_draw self ->
  let raises :=
    step fuel 0 self = (Raise (AssertionError (Some player_bust_msg)), self) in
  snd (step fuel 0 self) = self
  /\ (forall z, player (score self) = PyInt z -> 1 <= z <= 21 ->
      step fuel 0 self =
      (Return ((PyInt z, dealer (score self)),
               (if truth (_is_bust (dealer (score self))) then 1
                else Z.sgn (z - val (dealer (score self)))),
               true), self))
  /\ (forall z, player (score self) = NpInt64 z -> raises)
  /\ (val (player (score self)) < 1 \/ val (player (score self)) > 21 -> raises).
Proof.
  intros Hd raises. subst raises.
  split; [|split; [|split]].
  - rewrite step_stick_eq, (dealer_loop_stop fuel self Hd).
    destruct (is_False (_is_bust (player (score self)))); reflexivity.
  - intros z Hp Hz. apply stick_stands; assumption.
  - intros z Hp. rewrite step_stick_eq, (dealer_loop_stop fuel self Hd), Hp.
    rewrite _is_bust_is_False_np. reflexivity.
  - intros Hb. apply _is_bust_true in Hb.
    rewrite step_stick_eq, (dealer_loop_stop fuel self Hd).
    rewrite (_is_bust_is_False_bust _ Hb). reflexivity.
Qed.

(** X6.  A Stick that has returned can be repeated: the second call, with any
    fuel, returns the same observation, reward and done flag and does not
    change the engine object. *)
Theorem stick_again fuel fuel' self result self' :
  step fuel 0 self = (Return result, self') ->
  step fuel' 0 self' = (Return result, self').
Proof.
  destruct result as [[ob reward] done]. intros E.
  destruct (step_returns_inv _ _ _ _ _ _ _ E)
    as [(Ha & _) | (_ & _ & Hd & Hpl & (z & Hp & Hz & ->) & -> & ->)]; [discriminate|].
  rewrite Hp in Hpl.
  rewrite (stick_stands fuel' self' z Hd Hpl Hz), Hp. reflexivity.
Qed.

(** X7.  A Stick that raises is not atomic: if the dealer had to draw, the
    assertion "Player already goes bust." fires only after the dealer's loop
    has run, so the dealer's sum the engine is left with differs from the
    one before the call and lies outside [1, 16].  The error is that
    assertion, and the player's sum is bust or is an [np.int64]. *)
Theorem failed_stick_has_drawn fuel self x self' :
  dealer_must_draw self ->
  step fuel 0 self = (Raise x, self') ->
  x = AssertionError (Some player_bust_msg)
  /\ (val (player (score self)) < 1 \/ val (player (score self)) > 21
      \/ exists z, player (score self) = NpInt64 z)
  /\ ~ dealer_must_draw self'
  /\ val (dealer (score self')) <> val (dealer (score self)).
Proof.
  intros Hd E. rewrite step_stick_eq in E.
  pose proof (dealer_loop_outcome fuel self) as [Hpl Ho].
  destruct (dealer_loop fuel self) as [[[]|y|] e1]; cbn [fst snd] in *.
  - destruct (is_False (_is_bust (player (score e1)))) eqn:Hb; [discriminate|].
    injection E as <- <-. rewrite Hpl in Hb.
    split; [reflexivity|]. split; [|split].
    + destruct (player (score self)) as [z|z] eqn:Hp.
      * destruct (Z_le_dec 1 z); [destruct (Z_le_dec z 21)|]; cbn [val]; try lia.
        assert (is_False (_is_bust (PyInt z)) = true) as Ht
          by (apply _is_bust_is_False; exists z; auto).
        rewrite Ht in Hb. discriminate.
      * right. right. exists z. reflexivity.
    + exact Ho.
    + unfold dealer_must_draw in *. lia.
  - destruct Ho.
  - discriminate.
Qed.

(** X8.  With a player sum between 1 and 16, a Stick that returns is never a
    tie: the reward is +1 exactly when the dealer ends bust and -1 exactly
    when the dealer ends between 17 and 21. *)
Theorem stick_below_17_never_ties fuel self ob reward done self' :
  1 <= val (player (score self)) <= 16 ->
  step fuel 0 self = (Return (ob, reward, done), self') ->
  reward <> 0
  /\ (reward = 1 <-> val (snd ob) < 1 \/ val (snd ob) > 21)
  /\ (reward = -1 <-> 17 <= val (snd ob) <= 21).
Proof.
  intros Hp E.
  destruct (step_returns_inv _ _ _ _ _ _ _ E)
    as [(Ha & _) | (_ & _ & Hd & _ & (z & Hz & _ & ->) & -> & _)]; [discriminate|].
  rewrite Hz in Hp. cbn [snd val] in *. unfold dealer_must_draw in Hd.
  destruct (truth (_is_bust (dealer (score self')))) eqn:Hb.
  - apply _is_bust_true in Hb. lia.
  - apply _is_bust_false in Hb.
    assert (Z.sgn (z - val (dealer (score self'))) = -1) as ->
      by (apply Z.sgn_neg; lia).
    lia.
Qed.

(** ** Hitting *)

(** X9.  A Hit from a live player sum [p] moves the sum by 2 to 10 either way; it
    can bust upwards only from 12 or more and downwards only from 10 or
    less, so a Hit at 11 never ends the episode. *)
Theorem hit_bust_thresholds fuel self ob reward done self' :
  1 <= val (player (score self)) <= 21 ->
  step fuel 1 self = (Return (ob, reward, done), self') ->
  2 <= Z.abs (val (fst ob) - val (player (score self))) <= 10
  /\ (val (fst ob) > 21 -> 12 <= val (player (score self)))
  /\ (val (fst ob) < 1 -> val (player (score self)) <= 10)
  /\ (val (player (score self)) = 11 -> done = false /\ reward = 0).
Proof.
  intros Hp E.
  destruct (step_returns_inv _ _ _ _ _ _ _ E)
    as [(_ & c & g & _ & Habs & _ & -> & -> & ->) | (Ha & _)]; [|discriminate].
  rewrite (np_add_small (player (score self)) c) by lia.
  cbn [fst val].
  replace (val (player (score self)) + c - val (player (score self))) with c by lia.
  split; [exact Habs|]. split; [lia|]. split; [lia|].
  intros H11.
  replace (truth (_is_bust (NpInt64 (val (player (score self)) + c)))) with false
    by (symmetry; apply _is_bust_false; cbn [val]; lia).
  split; reflexivity.
Qed.

(** ** Sums stay small *)

Lemma dealer_loop_bounded fuel : forall self self',
  -9 <= val (dealer (score self)) <= 26 ->
  dealer_loop fuel self = (Return tt, self') ->
  -9 <= val (dealer (score self')) <= 26.
Proof.
  induction fuel as [|fuel IH]; intros self self' Hb E.
  - destruct (dealer_must_draw_dec self) as [Hd|Hd].
    + rewrite dealer_loop_out_of_fuel in E by assumption. discriminate.
    + rewrite dealer_loop_stop in E by assumption. injection E as <-. exact Hb.
  - destruct (dealer_must_draw_dec self) as [Hd|Hd].
    + destruct (_draw_card_delta self) as (c & g & Ec & Habs).
      rewrite (dealer_loop_draw fuel self c g Hd Ec) in E.
      apply IH in E; [exact E|]. cbn [score dealer val].
      unfold dealer_must_draw in Hd. lia.
    + rewrite dealer_loop_stop in E by assumption. injection E as <-. exact Hb.
Qed.

(** X10.  In an episode started by [reset] and still in progress, whatever [step]
    returns next shows a player sum within [-9, 31] and a dealer sum within
    [-9, 26]; after a Stick the dealer's sum is at most 0 or at least 17. *)
Theorem episode_sums_bounded e ob0 fuel action ob reward done e' :
  playing e ob0 ->
  step fuel action e = (Return (ob, reward, done), e') ->
  -9 <= val (fst ob) <= 31
  /\ -9 <= val (snd ob) <= 26
  /\ (action = 0 -> val (snd ob) <= 0 \/ 17 <= val (snd ob)).
Proof.
  intros Hp E. destruct (playing_invariant e ob0 Hp) as (_ & Hpl & Hdl).
  destruct (step_returns_inv _ _ _ _ _ _ _ E)
    as [(-> & c & g & _ & Habs & _ & -> & _) | (-> & El & Hd & _ & _ & -> & _)].
  - rewrite (np_add_small (player (score e)) c) by lia.
    cbn [fst snd val]. repeat split; lia.
  - pose proof (dealer_loop_bounded fuel e e' ltac:(lia) El).
    cbn [fst snd]. unfold dealer_must_draw in Hd. lia.
Qed.

(** ** Construction *)

(** X11.  A freshly constructed engine already holds a dealt hand: whatever seed
    the operating system supplied, both sums lie in [2, 10] and the engine is
    in an episode in progress, with no call of [reset] by the user. *)
Theorem init_deals_hand (entropy : Z) :
  let e := __init__ entropy in
  playing e (player (score e), dealer (score e))
  /\ 2 <= val (player (score e)) <= 10
  /\ 2 <= val (dealer (score e)) <= 10
  /\ in_observation_space (player (score e), dealer (score e)) = true.
Proof.
  cbv zeta. unfold __init__.
  set (e0 := mkEasy21 (mkScore (PyInt 0) (PyInt 0)) (fst (seeding_np_random entropy))).
  destruct (_draw_hand_shape e0) as (p & d & g & E & Hp & Hd).
  assert (Er : reset e0
               = (Return (PyInt p, PyInt d), mkEasy21 (mkScore (PyInt p) (PyInt d)) g))
    by exact E.
  rewrite Er. cbn [snd score player dealer val].
  split; [exact (playing_reset e0 (PyInt p, PyInt d) _ Er)|].
  split; [exact Hp|]. split; [exact Hd|].
  unfold in_observation_space, observation_space.
  cbn [fst snd val MultiDiscrete_contains].
  rewrite !andb_true_iff, !Z.leb_le, !Z.ltb_lt. lia.
Qed.

End Episode.

(** ** Rendering *)






Section Rendering.

Context {G : Type} `{RandomState G}.


End Rendering.

Example test_render :
  render "ansi" (mkEasy21 (mkScore (NpInt64 21) (PyInt (-4))) (mkTape (fun _ => 1) 0))
    = Some "Easy21: Player 21 vs -4 Dealer "%string
  /\ render "human" (mkEasy21 (mkScore (NpInt64 21) (PyInt (-4))) (mkTape (fun _ => 1) 0))
     = None.
Proof. split; reflexivity. Qed.

(** * Instances of the further properties *)

(** The engine after a Stick from [dealt_threes]: the dealer drew five 3s. *)
Definition stuck_threes : Easy21 Tape :=
  mkEasy21 (mkScore (PyInt 3) (NpInt64 18)) (mkTape (fun _ => 1) 12).

(** A bust player facing a dealer who still has to draw. *)
Definition bust_player : Easy21 Tape :=
  mkEasy21 (mkScore (NpInt64 22) (PyInt 3)) (mkTape (fun _ => 1) 0).

Lemma step_reward_in_range_witness :
  fst reward_range <= -1 <= snd reward_range /\ (-1 = -1 \/ -1 = 0 \/ -1 = 1).
Proof.
  exact (@step_reward_in_range Tape Tape_RandomState 5%nat 0 dealt_threes
           (PyInt 3, NpInt64 18) (-1) true stuck_threes eq_refl).
Defined.

Lemma step_done_iff_witness :
  (false = true <-> 1 = 0 \/ 6 < 1 \/ 6 > 21)
  /\ (false = false -> 1 = 1 /\ 0 = 0 /\ 1 <= 6 <= 21)
  /\ (0 <> 0 -> false = true).
Proof.
  exact (@step_done_iff Tape Tape_RandomState 0%nat 1 dealt_threes
           (NpInt64 6, PyInt 3) 0 false hit_threes eq_refl).
Defined.

Lemma returned_observation_is_score_witness :
  (PyInt 3, NpInt64 18) = (player (score stuck_threes), dealer (score stuck_threes)).
Proof.
  exact (proj2 (@returned_observation_is_score Tape Tape_RandomState 5%nat 0 dealt_threes)
           (PyInt 3, NpInt64 18) (-1) true stuck_threes eq_refl).
Defined.

Lemma reward_query_is_pure_witness :
  _get_reward_and_terminator "banker" stuck_threes
  = _get_reward_and_terminator "dealer" stuck_threes.
Proof.
  apply (proj2 (reward_query_is_pure "banker" stuck_threes)).
  discriminate.
Defined.

Lemma stick_without_draw_witness :
  snd (step 0 0 stuck_threes) = stuck_threes
  /\ step 0 0 stuck_threes = (Return ((PyInt 3, NpInt64 18), -1, true), stuck_threes)
  /\ step 0 0 (mkEasy21 (mkScore (NpInt64 6) (NpInt64 18)) black_threes)
     = (Raise (AssertionError (Some player_bust_msg)),
        mkEasy21 (mkScore (NpInt64 6) (NpInt64 18)) black_threes).
Proof.
  assert (Hd : ~ dealer_must_draw stuck_threes) by (unfold dealer_must_draw; cbn; lia).
  assert (Hd' : ~ dealer_must_draw
                  (mkEasy21 (mkScore (NpInt64 6) (NpInt64 18)) black_threes))
    by (unfold dealer_must_draw; cbn; lia).
  split; [|split].
  - exact (proj1 (@stick_without_draw Tape Tape_RandomState 0%nat stuck_threes Hd)).
  - apply (proj1 (proj2 (@stick_without_draw Tape Tape_RandomState 0%nat stuck_threes Hd))
             3 eq_refl).
    lia.
  - exact (proj1 (proj2 (proj2 (@stick_without_draw Tape Tape_RandomState 0%nat _ Hd')))
             6 eq_refl).
Defined.

Lemma stick_again_witness :
  step 0 0 stuck_threes = (Return ((PyInt 3, NpInt64 18), -1, true), stuck_threes).
Proof.
  exact (@stick_again Tape Tape_RandomState 5%nat 0%nat dealt_threes
           ((PyInt 3, NpInt64 18), -1, true) stuck_threes eq_refl).
Defined.

Lemma failed_stick_has_drawn_witness :
  step 5 0 bust_player
    = (Raise (AssertionError (Some player_bust_msg)),
       mkEasy21 (mkScore (NpInt64 22) (NpInt64 18)) (mkTape (fun _ => 1) 10))
  /\ 18 <> 3.
Proof.
  split; [reflexivity|].
  assert (Hd : dealer_must_draw bust_player) by (unfold dealer_must_draw; cbn; lia).
  exact (proj2 (proj2 (proj2
           (@failed_stick_has_drawn Tape Tape_RandomState 5%nat bust_player
              (AssertionError (Some player_bust_msg))
              (mkEasy21 (mkScore (NpInt64 22) (NpInt64 18)) (mkTape (fun _ => 1) 10))
              Hd eq_refl)))).
Defined.

Lemma stick_below_17_never_ties_witness :
  -1 <> 0 /\ (-1 = 1 <-> 18 < 1 \/ 18 > 21) /\ (-1 = -1 <-> 17 <= 18 <= 21).
Proof.
  assert (Hp : 1 <= val (player (score dealt_threes)) <= 16) by (cbn; lia).
  exact (@stick_below_17_never_ties Tape Tape_RandomState 5%nat dealt_threes
           (PyInt 3, NpInt64 18) (-1) true stuck_threes Hp eq_refl).
Defined.

Lemma hit_bust_thresholds_witness :
  2 <= Z.abs (14 - 11) <= 10
  /\ (14 > 21 -> 12 <= 11)
  /\ (14 < 1 -> 11 <= 10)
  /\ (11 = 11 -> false = false /\ 0 = 0).
Proof.
  assert (Hp : 1 <= 11 <= 21) by lia.
  exact (@hit_bust_thresholds Tape Tape_RandomState 0%nat
           (mkEasy21 (mkScore (PyInt 11) (PyInt 3)) black_threes)
           (NpInt64 14, PyInt 3) 0 false
           (mkEasy21 (mkScore (NpInt64 14) (PyInt 3)) (mkTape (fun _ => 1) 2)) Hp eq_refl).
Defined.

Lemma episode_sums_bounded_witness :
  -9 <= 3 <= 31 /\ -9 <= 18 <= 26 /\ (0 = 0 -> 18 <= 0 \/ 17 <= 18).
Proof.
  assert (Hp : playing dealt_threes (PyInt 3, PyInt 3)).
  { apply (@playing_reset Tape Tape_RandomState
             (mkEasy21 (mkScore (PyInt 0) (PyInt 0)) black_threes)).
    reflexivity. }
  exact (@episode_sums_bounded Tape Tape_RandomState dealt_threes (PyInt 3, PyInt 3)
           5%nat 0 (PyInt 3, NpInt64 18) (-1) true stuck_threes Hp eq_refl).
Defined.

